(** * kakeibo-dashboard: the ingestion script [scripts/make_sql_for_granafa.py]

  A shallow embedding of the script's five functions
  ([preprocess_csv_data], [preprocess_excel_data],
  [convert_dates_to_string], [insert_data_to_sqlite]) over a small model
  of the pandas and sqlite3 operations they call, and the properties of
  the specification stated over that embedding.

  Layout:
  - [Py]      cell values, exceptions, the two monads (pure / stateful);
  - [Np]      int64 and float64 column arithmetic as numpy performs it;
  - [Pd]      the DataFrame model (columns, rows, indexing, assignment);
  - [Csv]     [preprocess_csv_data];
  - [Excel]   [preprocess_excel_data] on a heap of DataFrame objects;
  - [Dates]   [convert_dates_to_string] on the same heap;
  - [Sqlite]  the database file, connections and [insert_data_to_sqlite]. *)

From Stdlib Require Import ZArith SpecFloat.
From stdpp Require Import gmap strings list fin_maps.

(* ===================================================================== *)
(** ** Python values, exceptions and effects                              *)
(* ===================================================================== *)

Module Py.

(** A cell of a table.  [VInt z] is an int64 cell
    ([-2^63 <= z < 2^63]); [VFloat f] a float64 cell, with
    [S754_nan] the missing value NaN; [VStr s] a text cell (the UTF-8
    bytes of the Python [str]); [VDate y m d] a [datetime.date];
    [VNone] is [None], the missing value pandas puts in a column of
    dtype object that it reads from the store. *)
Inductive value :=
  | VInt (z : Z)
  | VFloat (f : spec_float)
  | VStr (s : string)
  | VDate (y m d : Z)
  | VNone.

Definition NaN : value := VFloat S754_nan.

(** The exceptions the script can raise. *)
Inductive exn :=
  | KeyError (key : string)
  | TypeError
  | ParseError
  | NameError
  | OperationalError (msg : string)
  | IntegrityError (msg : string).

Inductive result (A : Type) :=
  | Ok (a : A)
  | Raise (e : exn).
Arguments Ok {A} a.
Arguments Raise {A} e.

#[global] Instance result_ret : MRet result := @Ok.
#[global] Instance result_bind : MBind result := fun A B f m =>
  match m with Ok a => f a | Raise e => Raise e end.

(** Stateful code: a computation receives the state, and returns the
    state it leaves behind together with its result or the exception it
    raised.  An exception does not undo the state changes made before
    it. *)
Definition M (S A : Type) : Type := S -> S * result A.

#[global] Instance M_ret {S} : MRet (M S) := fun A a s => (s, Ok a).
#[global] Instance M_bind {S} : MBind (M S) := fun A B f m s =>
  match m s with
  | (s', Ok a) => f a s'
  | (s', Raise e) => (s', Raise e)
  end.

Definition lift {S A} (r : result A) : M S A := fun s => (s, r).
Definition get {S} : M S S := fun s => (s, Ok s).
Definition put {S} (s : S) : M S unit := fun _ => (s, Ok tt).
Definition modify {S} (f : S -> S) : M S unit := fun s => (f s, Ok tt).


(** [list(map(f, xs))] for a function that may raise: the first
    exception wins. *)
Fixpoint map_result {A B} (f : A -> result B) (xs : list A) : result (list B) :=
  match xs with
  | [] => Ok []
  | x :: xs' =>
      match f x with
      | Raise e => Raise e
      | Ok y => match map_result f xs' with
                | Raise e => Raise e
                | Ok ys => Ok (y :: ys)
                end
      end
  end.

(** Python's [needle in hay] on two [str]: substring test.  On UTF-8
    bytes it agrees with the test on code points, since a well-formed
    needle can only match at a character boundary. *)
Fixpoint startswith (needle hay : string) : bool :=
  match needle, hay with
  | EmptyString, _ => true
  | String a n', String b h' => if Ascii.eqb a b then startswith n' h' else false
  | String _ _, EmptyString => false
  end.

Fixpoint contains (needle hay : string) : bool :=
  startswith needle hay ||
  match hay with
  | EmptyString => false
  | String _ h' => contains needle h'
  end.

End Py.
Export Py.

(* ===================================================================== *)
(** ** numpy arithmetic on int64 and float64                              *)
(* ===================================================================== *)

Module Np.

(** float64 is IEEE 754 binary64: 53 bits of precision, [emax = 1024]. *)
Definition prec : Z := 53.
Definition emax : Z := 1024.

(** int64 arithmetic wraps around silently. *)
Definition wrap64 (z : Z) : Z := ((z + 2 ^ 63) mod 2 ^ 64 - 2 ^ 63)%Z.

(** int64 to float64, rounding to nearest even. *)
Definition to_float (z : Z) : spec_float := binary_normalize prec emax z 0 false.

Inductive dtype := Int64 | Float64 | Object.

Definition is_int (v : value) : bool :=
  match v with VInt _ => true | _ => false end.
Definition is_numeric (v : value) : bool :=
  match v with VInt _ | VFloat _ => true | _ => false end.

(** The dtype pandas gives a column: int64 when every cell is an
    integer, float64 when every cell is a number (integers are then held
    as floats), object otherwise. *)
Definition dtype_of (s : list value) : dtype :=
  if forallb is_int s then Int64
  else if forallb is_numeric s then Float64
  else Object.

Definition as_int (v : value) : Z :=
  match v with VInt z => z | _ => 0%Z end.
Definition as_float (v : value) : spec_float :=
  match v with VInt z => to_float z | VFloat f => f | _ => S754_nan end.

(** dtype of [a op b] for [op] among [+ - *]. *)
Definition common_dtype (a b : list value) : dtype :=
  match dtype_of a, dtype_of b with
  | Object, _ | _, Object => Object
  | Int64, Int64 => Int64
  | _, _ => Float64
  end.

(** Element-wise arithmetic of two columns of one frame.  On numeric
    columns numpy computes in the common dtype and never raises: int64
    wraps, float64 follows IEEE 754 (division by zero gives an infinity
    or NaN; pandas silences the warning).  A column holding a cell that
    is not a number has dtype object, and pandas computes on it cell by
    cell with Python's operators.  Of that only this much is modelled:
    the script's expressions end in [-] or [/], which raise
    [TypeError] when a text cell meets a cell that is not missing.  The
    model raises [TypeError] on every column of dtype object; what
    pandas makes of the other such columns (the difference of two
    columns of dates; a cell whose partner is missing, which pandas
    leaves out of the computation) is not covered. *)
Definition arith_cell (fi : Z -> Z -> Z) (ff : spec_float -> spec_float -> spec_float)
    (dt : dtype) (x y : value) : value :=
  match dt with
  | Int64 => VInt (wrap64 (fi (as_int x) (as_int y)))
  | _ => VFloat (ff (as_float x) (as_float y))
  end.

Definition arith (fi : Z -> Z -> Z) (ff : spec_float -> spec_float -> spec_float)
    (a b : list value) : result (list value) :=
  match common_dtype a b with
  | Object => Raise TypeError
  | dt => Ok (zip_with (arith_cell fi ff dt) a b)
  end.

Definition add_cell := arith_cell Z.add (SFadd prec emax).
Definition sub_cell := arith_cell Z.sub (SFsub prec emax).
Definition mul_cell := arith_cell Z.mul (SFmul prec emax).

Definition add := arith Z.add (SFadd prec emax).
Definition sub := arith Z.sub (SFsub prec emax).
Definition mul := arith Z.mul (SFmul prec emax).

(** True division always computes in float64. *)
Definition div_cell (x y : value) : value :=
  VFloat (SFdiv prec emax (as_float x) (as_float y)).

Definition div (a b : list value) : result (list value) :=
  match common_dtype a b with
  | Object => Raise TypeError
  | _ => Ok (zip_with div_cell a b)
  end.

(** A float64 that is not a number one can compute with further. *)
Definition inf_or_nan (f : spec_float) : bool :=
  match f with
  | S754_infinity _ | S754_nan => true
  | _ => false
  end.

(** [x == y] on two cells: numbers compare by value (NaN equals
    nothing), text and dates by content, [None] equals [None] only,
    different kinds are unequal. *)
Definition equal (x y : value) : bool :=
  match x, y with
  | VInt a, VInt b => (a =? b)%Z
  | VFloat f, VFloat g => SFeqb f g
  | VInt a, VFloat g => SFeqb (to_float a) g
  | VFloat f, VInt b => SFeqb f (to_float b)
  | VStr s, VStr t => String.eqb s t
  | VDate y1 m1 d1, VDate y2 m2 d2 => (y1 =? y2)%Z && (m1 =? m2)%Z && (d1 =? d2)%Z
  | VNone, VNone => true
  | _, _ => false
  end.

Definition is_nan (v : value) : bool :=
  match v with VFloat S754_nan => true | _ => false end.

(** Membership as [Series.isin] and a Python [set] decide it: as [equal],
    except that NaN is found among NaN.  NaN and [None] are two
    different missing values: neither is found where only the other
    is. *)
Definition isin (x : value) (ys : list value) : bool :=
  existsb (fun y => equal x y || (is_nan x && is_nan y)) ys.

End Np.

(* ===================================================================== *)
(** ** The DataFrame model                                                *)
(* ===================================================================== *)

Module Pd.

(** A row maps column names to cells; a column the row has no entry for
    reads as the missing value, which is how pandas fills the holes left
    by [pd.concat].  A frame is its column index and its rows in order.
    The row labels (the pandas index) are left out: every assignment and
    mask of the script is built from a column of the frame it is applied
    to, so pandas pairs them with the rows by position. *)
Abbreviation Row := (gmap string value).
Abbreviation Series := (list value).

Record DataFrame := mkDF { columns : list string; rows : list Row }.

Definition cell (r : Row) (c : string) : value := default NaN (r !! c).

(** The cells of column [c], row by row. *)
Definition column (df : DataFrame) (c : string) : Series :=
  map (fun r => cell r c) (rows df).

(** [df[c]] *)
Definition getitem (df : DataFrame) (c : string) : result Series :=
  if bool_decide (c ∈ columns df)
  then Ok (column df c)
  else Raise (KeyError c).

(** [df[c] = s]: overwrites column [c], or adds it as the last column.
    The script only assigns a Series computed from the frame itself, one
    cell per row. *)
Definition setitem (df : DataFrame) (c : string) (s : Series) : DataFrame :=
  mkDF (if bool_decide (c ∈ columns df) then columns df else columns df ++ [c])
       (zip_with (fun r v => <[c := v]> r) (rows df) s).

(** [df[c] = v] for a scalar [v], broadcast to every row. *)
Definition setitem_scalar (df : DataFrame) (c : string) (v : value) : DataFrame :=
  setitem df c (map (fun _ => v) (rows df)).

(** [df[mask]] for a boolean column [mask]. *)
Fixpoint mask_rows (rs : list Row) (mask : list bool) : list Row :=
  match rs, mask with
  | r :: rs', b :: mask' => if b then r :: mask_rows rs' mask' else mask_rows rs' mask'
  | _, _ => []
  end.

Definition select (df : DataFrame) (mask : list bool) : DataFrame :=
  mkDF (columns df) (mask_rows (rows df) mask).

(** [df[[c1, ..., cn]]]: the listed columns, in the listed order. *)
Definition restrict (cs : list string) (r : Row) : Row :=
  filter (fun kv => kv.1 ∈ cs) r.

Definition getitems (df : DataFrame) (cs : list string) : result DataFrame :=
  match List.find (fun c => negb (bool_decide (c ∈ columns df))) cs with
  | Some c => Raise (KeyError c)
  | None => Ok (mkDF cs (restrict cs <$> rows df))
  end.

(** [pd.concat(dfs)]: the rows of the frames one after the other; the
    columns are the union of the frames' columns in order of first
    appearance. *)
Definition union_columns (acc cs : list string) : list string :=
  foldl (fun acc c => if bool_decide (c ∈ acc) then acc else acc ++ [c]) acc cs.

Definition pd_concat (dfs : list DataFrame) : DataFrame :=
  mkDF (foldl union_columns [] (columns <$> dfs)) (concat (rows <$> dfs)).

(** [df.empty] *)
Definition df_empty (df : DataFrame) : bool :=
  match columns df, rows df with
  | [], _ | _, [] => true
  | _, _ => false
  end.

(** [s == v], [s.apply(f)], [s.isin(values)], [~mask] on a column. *)
Definition series_eq (s : Series) (v : value) : list bool := map (fun x => Np.equal x v) s.
Definition series_apply (f : value -> result value) (s : Series) : result Series :=
  map_result f s.
Definition series_isin (s : Series) (values : list value) : list bool :=
  map (fun x => Np.isin x values) s.
Definition series_not (mask : list bool) : list bool := map negb mask.

End Pd.
Export Pd.

(* ===================================================================== *)
(** ** The CSV normalizer                                                 *)
(* ===================================================================== *)

Module Csv.

(** The column names, as in the CSV export. *)
Definition col_include : string := "計算対象".
Definition col_major : string := "大項目".

(** The travel token. *)
Definition travel : string := "出張".

(** [lambda x: "出張" if "出張" in x else x]; [in] raises on a cell that
    is not text. *)
Definition travel_rule (x : value) : result value :=
  match x with
  | VStr s => Ok (if contains travel s then VStr travel else x)
  | _ => Raise TypeError
  end.

(** [preprocess_csv_data(df)].  The function works on copies of the
    selections, so it is a function of the frame's value. *)
Definition preprocess_csv_data (df : DataFrame) : result DataFrame :=
  flag ← getitem df col_include;
  let df_filtered := select df (series_eq flag (VInt 1)) in
  flag ← getitem df col_include;
  let df_zero := select df (series_eq flag (VInt 0)) in
  major ← getitem df_zero col_major;
  major ← series_apply travel_rule major;
  let df_zero := setitem df_zero col_major major in
  let df_processed := pd_concat [df_filtered; df_zero] in
  mret df_processed.

(** Vocabulary of the specification.  A row is included when its flag
    compares equal to 1, excluded when it compares equal to 0. *)
Definition included (r : Row) : bool := Np.equal (cell r col_include) (VInt 1).
Definition excluded (r : Row) : bool := Np.equal (cell r col_include) (VInt 0).

(** The travel rule on a whole row: the major category becomes the
    travel token when its text contains it; nothing else changes. *)
Definition is_travel (r : Row) : bool :=
  match cell r col_major with
  | VStr s => contains travel s
  | _ => false
  end.

Definition rewrite_major (r : Row) : Row :=
  if is_travel r then <[col_major := VStr travel]> r else r.

(** A valid CSV table has the two columns the normalizer reads, no
    column twice, and a text major category in every excluded row. *)
Definition text_major (r : Row) : Prop := exists s, r !! col_major = Some (VStr s).

Definition valid_csv (df : DataFrame) : Prop :=
  col_include ∈ columns df /\ col_major ∈ columns df /\ NoDup (columns df) /\
  Forall (fun r => excluded r = true -> text_major r) (rows df).

(** A small table: an excluded business-trip row, a row whose flag is
    missing, and an included row. *)
Definition food : Row :=
  <["ID" := VInt 1]> (<[col_include := VInt 1]> (<[col_major := VStr "食費"]> ∅)).
Definition business_trip : Row :=
  <["ID" := VInt 2]> (<[col_include := VInt 0]> (<[col_major := VStr "仕事の出張費"]> ∅)).
Definition unflagged : Row :=
  <["ID" := VInt 3]> (<[col_include := NaN]> (<[col_major := VStr "食費"]> ∅)).

Definition sample_csv : DataFrame :=
  mkDF ["ID"; col_include; col_major] [business_trip; unflagged; food].

End Csv.

(* ===================================================================== *)
(** ** DataFrame objects                                                  *)
(* ===================================================================== *)

(** A DataFrame is a mutable Python object: a caller and a callee that
    hold the same reference see each other's assignments.  The heap lists
    the objects allocated so far; a reference is a position in it. *)
Module Obj.

Abbreviation Heap := (list DataFrame).
Abbreviation loc := nat.

Definition load (l : loc) : M Heap DataFrame := fun h =>
  match h !! l with
  | Some df => (h, Ok df)
  | None => (h, Raise NameError)
  end.

Definition alloc (df : DataFrame) : M Heap loc := fun h => (h ++ [df], Ok (length h)).

Definition store (l : loc) (df : DataFrame) : M Heap unit := fun h => (<[l := df]> h, Ok tt).

(** [df.columns] *)
Definition columns_of (l : loc) : M Heap (list string) :=
  df ← load l; mret (columns df).

(** [df[c]]: reads a column; the Series is a value of its own. *)
Definition getitem (l : loc) (c : string) : M Heap Series :=
  df ← load l; lift (Pd.getitem df c).

(** [df[c] = s] and [df[c] = v]: assign into the object itself. *)
Definition setitem (l : loc) (c : string) (s : Series) : M Heap unit :=
  df ← load l; store l (Pd.setitem df c s).

Definition setitem_scalar (l : loc) (c : string) (v : value) : M Heap unit :=
  df ← load l; store l (Pd.setitem_scalar df c v).

(** [df.copy()]: a new object with the same contents. *)
Definition copy (l : loc) : M Heap loc :=
  df ← load l; alloc df.

(** [df[[c1, ..., cn]]]: a new object holding the listed columns. *)
Definition getitems (l : loc) (cs : list string) : M Heap loc :=
  df ← load l; df' ← lift (Pd.getitems df cs); alloc df'.

End Obj.

(* ===================================================================== *)
(** ** The spreadsheet normalizer                                         *)
(* ===================================================================== *)

Module Excel.
Import Obj.

Definition col_include : string := "計算対象".
Definition col_amount : string := "金額（円）".
Definition col_u1_amount : string := "U1金額 (円)".
Definition col_u2_share : string := "U2 負担".
Definition col_u2_amount : string := "U2金額 (円)".
Definition col_u1_ratio : string := "U1 比率".
Definition col_u2_ratio : string := "U2 比率".

(** The common column set of the projection. *)
Definition common_columns : list string :=
  ["ID"; "日付"; "内容"; "金額（円）"; "大項目"; "中項目"; "メモ"; "計算対象"].

(** [preprocess_excel_data(df, u1)]; [df] is the caller's object. *)
Definition preprocess_excel_data (df : loc) (u1 : bool) : M Heap loc :=
  cols ← columns_of df;
  (if negb (bool_decide (col_include ∈ cols))
   then setitem_scalar df col_include (VInt 1)
   else mret tt);;
  (if u1 then
     a ← getitem df col_u1_amount;
     b ← getitem df col_u2_share;
     d ← lift (Np.sub a b);
     setitem df col_amount d
   else
     a ← getitem df col_u2_amount;
     p ← getitem df col_u1_ratio;
     n ← lift (Np.mul a p);
     p' ← getitem df col_u1_ratio;
     q ← getitem df col_u2_ratio;
     t ← lift (Np.add p' q);
     d ← lift (Np.div n t);
     setitem df col_amount d);;
  df_processed ← copy df;
  df_processed ← getitems df_processed common_columns;
  mret df_processed.

(** The two assignments, as functions of the frame's value: the frame
    with the include column in place, and the amounts computed from it. *)
Definition with_include (df : DataFrame) : DataFrame :=
  if bool_decide (col_include ∈ columns df) then df
  else Pd.setitem_scalar df col_include (VInt 1).

Definition amount_column (u1 : bool) (df : DataFrame) : result Series :=
  if u1 then
    a ← Pd.getitem df col_u1_amount;
    b ← Pd.getitem df col_u2_share;
    Np.sub a b
  else
    a ← Pd.getitem df col_u2_amount;
    p ← Pd.getitem df col_u1_ratio;
    n ← Np.mul a p;
    p' ← Pd.getitem df col_u1_ratio;
    q ← Pd.getitem df col_u2_ratio;
    t ← Np.add p' q;
    Np.div n t.

(** What a sheet must carry besides its amount columns, and what makes
    a column one numpy computes on. *)
Definition record_columns (df : DataFrame) : Prop :=
  Forall (fun c => c ∈ columns df) ["ID"; "日付"; "内容"; "大項目"; "中項目"; "メモ"].

Definition numeric_column (df : DataFrame) (c : string) : Prop :=
  c ∈ columns df /\ Forall (fun r => Np.is_numeric (cell r c) = true) (rows df).

(** Sample sheets.  The primary sheet holds the row of the end-to-end
    scenario (raw amount 3000, secondary share 1000); the secondary sheet
    holds the row with raw amount 900 and ratios 1 : 2; the last sheet
    has two rows whose ratios sum to zero. *)
Definition sheet_columns (extra : list string) : list string :=
  ["ID"; "日付"; "内容"; "大項目"; "中項目"; "メモ"] ++ extra.

Definition sheet_row (id : Z) (extra : Row) : Row :=
  <["ID" := VInt id]> (<["日付" := VDate 2024 1 5]> (<["内容" := VStr "家賃"]>
  (<["大項目" := VStr "住宅"]> (<["中項目" := VStr "家賃"]> (<["メモ" := NaN]> extra))))).

Definition sheet_u1 : DataFrame :=
  mkDF (sheet_columns [col_u1_amount; col_u2_share])
       [sheet_row 1 (<[col_u1_amount := VInt 3000]> (<[col_u2_share := VInt 1000]> ∅))].

Definition sheet_u2 : DataFrame :=
  mkDF (sheet_columns [col_u2_amount; col_u1_ratio; col_u2_ratio])
       [sheet_row 2 (<[col_u2_amount := VInt 900]> (<[col_u1_ratio := VInt 1]>
                     (<[col_u2_ratio := VInt 2]> ∅)))].

Definition sheet_u2_zero : DataFrame :=
  mkDF (sheet_columns [col_u2_amount; col_u1_ratio; col_u2_ratio])
       [sheet_row 3 (<[col_u2_amount := VInt 900]> (<[col_u1_ratio := VInt 0]>
                     (<[col_u2_ratio := VInt 0]> ∅)));
        sheet_row 4 (<[col_u2_amount := VInt 900]> (<[col_u1_ratio := VInt 1]>
                     (<[col_u2_ratio := VInt (-1)]> ∅)))].

End Excel.

(* ===================================================================== *)
(** ** The date canonicalizer                                             *)
(* ===================================================================== *)

Module Dates.
Import Obj.

Section Canonicalizer.

(** [pd.to_datetime(s).dt.date]: pandas' permissive date parser followed
    by the projection to calendar dates.  The parser is a library
    function; all that is used of it is that it either raises or returns
    one cell per cell of its argument. *)
Variable to_datetime_date : Series -> option Series.




End Canonicalizer.


End Dates.

(* ===================================================================== *)
(** ** The store writer                                                   *)
(* ===================================================================== *)

Module Sqlite.

(** A table: its columns, the column declared [INTEGER PRIMARY KEY] if
    there is one, and its rows in insertion order. *)
Record Table := mkTable {
  t_columns : list string;
  t_key : option string;
  t_rows : list Row
}.

(** The database file at [db_path], as committed, and the number of
    connections to it that are open. *)
Record Database := mkDb {
  tables : gmap string Table;
  open_connections : nat
}.

Definition set_tables (f : gmap string Table -> gmap string Table) (db : Database) : Database :=
  mkDb (f (tables db)) (open_connections db).

(** [sqlite3.connect(db_path)] and [conn.close()] *)
Definition connect : M Database unit :=
  modify (fun db => mkDb (tables db) (S (open_connections db))).

Definition close : M Database unit :=
  modify (fun db => mkDb (tables db) (pred (open_connections db))).

(** [conn.commit()].  Every statement of the function is committed by
    the time it returns: sqlite3 runs [CREATE TABLE] outside a
    transaction, and [to_sql] commits its own transaction (or rolls it
    back and re-raises).  [tables] is the committed state, so the final
    commit changes nothing. *)
Definition commit : M Database unit := mret tt.

(** The table of the [CREATE TABLE IF NOT EXISTS my_table] statement. *)
Definition my_table : string := "my_table".

Definition my_table_columns : list string :=
  ["ID"; "計算対象"; "日付"; "内容"; "金額"; "保有金融機関"; "大項目"; "中項目"; "メモ"; "振替"].

(** [cursor.execute("CREATE TABLE IF NOT EXISTS name (...)")] *)
Definition create_table_if_not_exists (name : string) (cols : list string)
    (key : option string) : M Database unit :=
  modify (fun db =>
    match tables db !! name with
    | Some _ => db
    | None => set_tables <[name := mkTable cols key []]> db
    end).

(** The rows of a table are the records as they were written.  What
    SQLite keeps of a cell, and what pandas makes of a column it reads
    back, differ from that in two ways.  A missing cell (NaN or [None])
    is stored as NULL, and a date as its ISO text.  A column read back
    that has a number in it and nothing but numbers and NULLs is a
    numeric column: of integers when every cell is one, of floats
    otherwise, with NaN for NULL.  Any other column has dtype object,
    with [None] for NULL.  (The declared column types, and the
    conversions SQLite makes on their account, are not modelled.) *)
Definition is_null (v : value) : bool :=
  match v with VNone => true | _ => Np.is_nan v end.

Definition digit (z : Z) : string :=
  String (Ascii.ascii_of_nat (48 + Z.to_nat (z mod 10))) "".

(** [date.isoformat()], for the years 1 to 9999 of [datetime.date]. *)
Definition isoformat (y m d : Z) : string :=
  digit (y / 1000) +:+ digit (y / 100) +:+ digit (y / 10) +:+ digit y +:+ "-" +:+
  digit (m / 10) +:+ digit m +:+ "-" +:+ digit (d / 10) +:+ digit d.

Definition stored_as (v : value) : value :=
  match v with VDate y m d => VStr (isoformat y m d) | _ => v end.

Definition read_column (cells : list value) : list value :=
  let stored := map stored_as cells in
  let present := List.filter (fun v => negb (is_null v)) stored in
  if forallb Np.is_int stored then stored
  else if forallb Np.is_numeric present && negb (bool_decide (present = []))
  then map (fun v => VFloat (Np.as_float v)) stored
  else map (fun v => if is_null v then VNone else v) stored.

(** [pd.read_sql_query("SELECT c FROM name", conn)] *)
Definition read_sql_query_select (c name : string) : M Database DataFrame := fun db =>
  match tables db !! name with
  | None => (db, Raise (OperationalError "no such table"))
  | Some t =>
      if bool_decide (c ∈ t_columns t)
      then (db, Ok (mkDF [c] ((fun v => ({[ c := v ]} : Row))
                               <$> read_column (map (fun r => cell r c) (t_rows t)))))
      else (db, Raise (OperationalError "no such column"))
  end.

(** Inserting rows one by one into a table with a primary key: a row
    whose key is already in the table is refused.  Only integer keys
    are modelled: for a NULL key SQLite makes up the next row ID, and
    it converts a float or a text that stands for an integer; such
    inserts, which succeed in SQLite with another key than the one
    written, fail here. *)
Definition key_conflict (k : string) (old : list Row) (r : Row) : bool :=
  match cell r k with
  | VInt z => existsb (fun r' => Np.equal (cell r' k) (VInt z)) old
  | _ => true
  end.

Fixpoint insert_rows (key : option string) (old new : list Row) : result (list Row) :=
  match new with
  | [] => Ok old
  | r :: new' =>
      match key with
      | Some k =>
          if key_conflict k old r
          then Raise (IntegrityError "constraint failed")
          else insert_rows key (old ++ [r]) new'
      | None => insert_rows key (old ++ [r]) new'
      end
  end.

Inductive if_exists := Replace | Append.

(** [df.to_sql(name, conn, if_exists=..., index=False, method="multi",
    chunksize=1000)].  A table that [to_sql] creates takes its columns
    from the frame and has no key; SQLite refuses a table without
    columns.  An append into an existing table needs every column of the
    frame in the table.  The chunks are written in one transaction, so
    either all rows are inserted or, on an exception, none. *)
Definition to_sql (df : DataFrame) (name : string) (mode : if_exists) : M Database unit := fun db =>
  let create :=
    match columns df with
    | [] => (set_tables (delete name) db, Raise (OperationalError "syntax error"))
    | _ => (set_tables <[name := mkTable (columns df) None (rows df)]> db, Ok tt)
    end in
  match mode, tables db !! name with
  | Replace, _ => create
  | Append, None => create
  | Append, Some t =>
      if forallb (fun c => bool_decide (c ∈ t_columns t)) (columns df)
      then match insert_rows (t_key t) (t_rows t) (rows df) with
           | Ok rs => (set_tables <[name := mkTable (t_columns t) (t_key t) rs]> db, Ok tt)
           | Raise e => (db, Raise e)
           end
      else (db, Raise (OperationalError "no such column"))
  end.

(** [insert_data_to_sqlite(db_path, table_name, df, replace)]; the state
    is the database file at [db_path]. *)
Definition insert_data_to_sqlite (table_name : string) (df : DataFrame) (replace : bool)
    : M Database unit :=
  connect;;
  create_table_if_not_exists my_table my_table_columns (Some "ID");;
  (if replace then
     to_sql df table_name Replace
   else
     existing_ids ← read_sql_query_select "ID" my_table;
     ids ← lift (Pd.getitem existing_ids "ID");
     let existing_ids_set := ids in
     df_id ← lift (Pd.getitem df "ID");
     let new_data := select df (series_not (series_isin df_id existing_ids_set)) in
     if negb (Pd.df_empty new_data)
     then to_sql new_data table_name Append
     else mret tt);;
  commit;;
  close.

(** The table the script's entry point writes to. *)
Definition financial_data : string := "financial_data".

(** The rows of a table; none if the table does not exist. *)
Definition table_rows (db : Database) (name : string) : list Row :=
  match tables db !! name with
  | Some t => t_rows t
  | None => []
  end.

(** The state after [connect] and the [CREATE TABLE IF NOT EXISTS]. *)
Definition opened (db : Database) : Database :=
  mkDb (match tables db !! my_table with
        | Some _ => tables db
        | None => <[my_table := mkTable my_table_columns (Some "ID") []]> (tables db)
        end) (S (open_connections db)).

(** The IDs the duplicate check of the append mode reads, and the rows
    of a batch that pass it. *)
Definition stored_ids (db : Database) : list value :=
  read_column (map (fun r => cell r "ID") (table_rows db my_table)).

(** What the declaration [ID INTEGER PRIMARY KEY] of [my_table] admits
    as an ID is an integer.  Below [2^53] in magnitude float64 holds
    every integer exactly, so that comparing such an ID with the ID of
    a batch does not depend on the type the two are brought to. *)
Definition integer_id (v : value) : bool :=
  match v with VInt z => (Z.abs z <? 2 ^ 53)%Z | _ => false end.

Definition integer_ids (db : Database) : Prop :=
  Forall (fun r => integer_id (cell r "ID") = true) (table_rows db my_table).

Definition new_rows (db : Database) (df : DataFrame) : list Row :=
  List.filter (fun r => negb (Np.isin (cell r "ID") (stored_ids db))) (rows df).

(** A new database file, and a batch of one normalized record. *)
Definition empty_db : Database := mkDb ∅ 0.

Definition record_1 : Row :=
  <["ID" := VInt 1]> (<["日付" := VDate 2024 1 5]> (<["内容" := VStr "家賃"]>
  (<["金額（円）" := VInt 2000]> (<["大項目" := VStr "住宅"]> (<["中項目" := VStr "家賃"]>
  (<["メモ" := NaN]> (<["計算対象" := VInt 1]> ∅))))))).

Definition sample_batch : DataFrame :=
  mkDF ["ID"; "日付"; "内容"; "金額（円）"; "大項目"; "中項目"; "メモ"; "計算対象"] [record_1].

(** A database in which [my_table] and the target disagree: [my_table]
    stores the record with ID 1, [financial_data] the one with ID 2;
    and a batch of the records with IDs 1, 2 and 3. *)
Definition entry (id : value) (text : string) : Row :=
  <["ID" := id]> (<["内容" := VStr text]> ∅).

Definition db_disagreeing : Database :=
  mkDb (<[my_table := mkTable my_table_columns (Some "ID") [entry (VInt 1) "家賃"]]>
        (<[financial_data := mkTable ["ID"; "内容"] None [entry (VInt 2) "食費"]]> ∅)) 0.

Definition batch_123 : DataFrame :=
  mkDF ["ID"; "内容"] [entry (VInt 1) "家賃"; entry (VInt 2) "食費"; entry (VInt 3) "光熱費"].

(** A database whose [my_table], made by another program, has one row,
    without an ID; and a batch whose first record has no ID either. *)
Definition db_null_id : Database :=
  mkDb {[ my_table := mkTable ["ID"; "内容"] None [entry NaN "家賃"] ]} 0.

Definition batch_missing_id : DataFrame :=
  mkDF ["ID"; "内容"] [entry NaN "食費"; entry (VInt 1) "光熱費"].

End Sqlite.


(* ===================================================================== *)
(** * Properties                                                          *)
(* ===================================================================== *)

(** Closed goals over concrete tables are decided by evaluation. *)
Ltac decide_closed :=
  match goal with
  | |- ?P => apply (bool_decide_unpack P); vm_compute; exact I
  end.

(** ** Running monadic code, and the substring test *)

Module PyFacts.

Lemma bind_run {S A B} (m : M S A) (f : A -> M S B) s :
  (m ≫= f) s = match m s with (s', Ok a) => f a s' | (s', Raise e) => (s', Raise e) end.
Proof. reflexivity. Qed.

Lemma ret_run {S A} (a : A) (s : S) : @mret (M S) _ A a s = (s, Ok a).
Proof. reflexivity. Qed.

Lemma lift_run {S A} (r : result A) (s : S) : lift r s = (s, r).
Proof. reflexivity. Qed.

Lemma modify_run {S} (f : S -> S) s : modify f s = (f s, Ok tt).
Proof. reflexivity. Qed.

Lemma append_cons b (n p : string) : String b n +:+ p = String b (n +:+ p).
Proof. reflexivity. Qed.

Lemma startswith_spec n h : startswith n h = true <-> exists post, h = n +:+ post.
Proof.
  revert h. induction n as [|a n IH]; intros h; simpl.
  - split; [intros _; by exists h | done].
  - destruct h as [|b h].
    + split; [done | intros [post Hp]; discriminate].
    + destruct (Ascii.eqb a b) eqn:E.
      * apply Ascii.eqb_eq in E as ->. rewrite IH.
        split; intros [post Hp]; exists post; rewrite append_cons in *; congruence.
      * apply Ascii.eqb_neq in E. split; [done|].
        intros [post Hp]. rewrite append_cons in Hp. congruence.
Qed.

Lemma contains_spec n h :
  contains n h = true <-> exists pre post, h = pre +:+ n +:+ post.
Proof.
  induction h as [|b h IH]; simpl.
  - rewrite orb_false_r, startswith_spec. split.
    + intros [post Hp]. by exists "", post.
    + intros (pre & post & Hp). destruct pre; [by exists post | discriminate].
  - rewrite orb_true_iff, startswith_spec, IH. split.
    + intros [[post Hp] | (pre & post & Hp)].
      * by exists "", post.
      * exists (String b pre), post. by rewrite append_cons, Hp.
    + intros (pre & post & Hp). destruct pre as [|c pre].
      * left. by exists post.
      * right. exists pre, post. rewrite append_cons in Hp. congruence.
Qed.

End PyFacts.

(** ** Facts about the DataFrame model *)

Module PdFacts.

Lemma cell_insert_eq (r : Row) c v : cell (<[c := v]> r) c = v.
Proof. unfold cell. by rewrite lookup_insert_eq. Qed.

Lemma cell_insert_ne (r : Row) c c' v : c' ≠ c -> cell (<[c' := v]> r) c = cell r c.
Proof. intros H. unfold cell. by rewrite lookup_insert_ne. Qed.

Lemma cell_text (r : Row) c s : cell r c = VStr s -> r !! c = Some (VStr s).
Proof. unfold cell. destruct (r !! c); simpl; [congruence | discriminate]. Qed.

Lemma cell_restrict (r : Row) cs c : c ∈ cs -> cell (restrict cs r) c = cell r c.
Proof.
  intros Hc. unfold cell, restrict.
  destruct (r !! c) as [v|] eqn:E.
  - assert (H : filter (λ kv : string * value, kv.1 ∈ cs) r !! c = Some v)
      by (apply map_lookup_filter_Some; split; done).
    by rewrite H.
  - assert (H : filter (λ kv : string * value, kv.1 ∈ cs) r !! c = None)
      by (apply map_lookup_filter_None; left; done).
    by rewrite H.
Qed.

Lemma getitem_Ok df c :
  c ∈ columns df -> Pd.getitem df c = Ok (map (fun r => cell r c) (rows df)).
Proof. intros H. unfold Pd.getitem. by rewrite bool_decide_eq_true_2. Qed.

Lemma getitem_inv df c s :
  Pd.getitem df c = Ok s -> c ∈ columns df /\ s = map (fun r => cell r c) (rows df).
Proof.
  unfold Pd.getitem. case_bool_decide; [|discriminate].
  intros [= <-]. done.
Qed.

Lemma mask_rows_map (p : Row -> bool) rs : mask_rows rs (map p rs) = List.filter p rs.
Proof. induction rs as [|r rs IH]; simpl; [done|]. rewrite IH. by destruct (p r). Qed.

Lemma map_result_inv {A B} (f : A -> result B) xs ys :
  map_result f xs = Ok ys -> Forall2 (fun x y => f x = Ok y) xs ys.
Proof.
  revert ys. induction xs as [|x xs IH]; simpl; intros ys.
  - intros [= <-]. constructor.
  - destruct (f x) as [y|] eqn:Ef; [|discriminate].
    destruct (map_result f xs) as [ys'|]; [|discriminate].
    intros [= <-]. constructor; auto.
Qed.

Lemma map_result_Ok {A B} (f : A -> result B) (g : A -> B) xs :
  Forall (fun x => f x = Ok (g x)) xs -> map_result f xs = Ok (map g xs).
Proof.
  induction 1 as [|x xs Hx _ IH]; simpl; [done|]. by rewrite Hx, IH.
Qed.

Lemma union_columns_absorb acc cs :
  Forall (fun c => c ∈ acc) cs -> union_columns acc cs = acc.
Proof.
  unfold union_columns. induction 1 as [|c cs Hc _ IH]; simpl; [done|].
  by rewrite bool_decide_eq_true_2.
Qed.

Lemma union_columns_fresh acc cs :
  NoDup (acc ++ cs) -> union_columns acc cs = acc ++ cs.
Proof.
  unfold union_columns. revert acc. induction cs as [|c cs IH]; intros acc Hnd; simpl.
  - by rewrite app_nil_r.
  - assert (Hc : c ∉ acc).
    { apply NoDup_app in Hnd as (_ & Hd & _). intros Hin. apply (Hd _ Hin). left. }
    rewrite bool_decide_eq_false_2 by done.
    rewrite IH; rewrite <- app_assoc; done.
Qed.

Lemma pd_concat_same_columns a b :
  NoDup (columns a) -> columns b = columns a ->
  columns (pd_concat [a; b]) = columns a.
Proof.
  intros Hnd Hb. unfold pd_concat. simpl. rewrite Hb.
  rewrite (union_columns_fresh [] (columns a)) by done. simpl.
  apply union_columns_absorb. by apply Forall_forall.
Qed.

Lemma lookup_map {A B} (f : A -> B) (l : list A) i : map f l !! i = f <$> (l !! i).
Proof. exact (list_lookup_fmap f l i). Qed.

Lemma zip_with_const {A B C} (f : A -> B -> C) (l : list A) (b : B) :
  zip_with f l (map (fun _ => b) l) = map (fun a => f a b) l.
Proof. induction l as [|a l IH]; simpl; [done|]. by rewrite IH. Qed.

Lemma forallb_zip_with {A B C} (p : C -> bool) (f : A -> B -> C) a b :
  (forall x y, p (f x y) = true) -> forallb p (zip_with f a b) = true.
Proof.
  intros Hf. revert b. induction a as [|x a IH]; intros [|y b]; simpl; try done.
  by rewrite Hf, IH.
Qed.

Lemma getitems_Ok df cs :
  Forall (fun c => c ∈ columns df) cs ->
  Pd.getitems df cs = Ok (mkDF cs (restrict cs <$> rows df)).
Proof.
  intros H. unfold Pd.getitems.
  destruct (find _ cs) as [c|] eqn:E; [|done].
  apply find_some in E as [Hin Hc]. rewrite Forall_forall in H.
  apply list_elem_of_In, H in Hin. by rewrite bool_decide_eq_true_2 in Hc.
Qed.

Lemma columns_setitem df c s c' :
  c' ∈ columns df \/ c' = c -> c' ∈ columns (Pd.setitem df c s).
Proof.
  unfold Pd.setitem. simpl. case_bool_decide; intros [H'| ->]; try done.
  - apply elem_of_app. by left.
  - apply elem_of_app. right. left.
Qed.

Lemma column_lookup df c i r : rows df !! i = Some r -> column df c !! i = Some (cell r c).
Proof. intros H. unfold column. by rewrite lookup_map, H. Qed.

Lemma column_length df c : length (column df c) = length (rows df).
Proof. apply length_map. Qed.




End PdFacts.

(** ** The CSV normalizer *)

Module CsvFacts.
Import Csv PyFacts PdFacts.

Lemma travel_rule_rewrite rs major :
  map_result travel_rule (map (fun r => cell r col_major) rs) = Ok major ->
  zip_with (fun r v => <[col_major := v]> r) rs major = map rewrite_major rs /\
  Forall text_major rs.
Proof.
  revert major. induction rs as [|r rs IH]; simpl; intros major.
  - intros [= <-]. done.
  - destruct (travel_rule (cell r col_major)) as [v|] eqn:Ev; [|discriminate].
    destruct (map_result travel_rule _) as [vs|] eqn:Evs; [|discriminate].
    intros [= <-]. destruct (IH vs eq_refl) as [IH1 IH2]. simpl.
    unfold travel_rule in Ev.
    destruct (cell r col_major) as [| |s| |] eqn:Ec; try discriminate.
    injection Ev as <-.
    pose proof (cell_text _ _ _ Ec) as Hr.
    split; [|constructor; [by exists s | done]].
    f_equal; [|done].
    unfold rewrite_major, is_travel. rewrite Ec.
    destruct (contains travel s); [done|]. by apply insert_id.
Qed.

Lemma text_major_travel_rule rs :
  Forall text_major rs ->
  exists major, map_result travel_rule (map (fun r => cell r col_major) rs) = Ok major.
Proof.
  induction 1 as [|r rs [s Hs] _ [major IH]]; simpl; [by eexists|].
  unfold cell at 1. rewrite Hs. simpl. rewrite IH. by eexists.
Qed.

Lemma preprocess_csv_data_unfold df :
  col_include ∈ columns df -> col_major ∈ columns df ->
  preprocess_csv_data df =
    match map_result travel_rule
            (map (fun r => cell r col_major) (List.filter excluded (rows df))) with
    | Ok major =>
        Ok (pd_concat
              [mkDF (columns df) (List.filter included (rows df));
               Pd.setitem (mkDF (columns df) (List.filter excluded (rows df))) col_major major])
    | Raise e => Raise e
    end.
Proof.
  intros Hi Hm. unfold preprocess_csv_data.
  rewrite (getitem_Ok _ _ Hi). cbn [mbind result_bind].
  unfold select, series_eq. rewrite !map_map.
  rewrite (mask_rows_map included), (mask_rows_map excluded).
  rewrite getitem_Ok by done. cbn [mbind result_bind rows].
  unfold series_apply. by destruct (map_result _ _).
Qed.

Lemma preprocess_csv_data_inv df out :
  preprocess_csv_data df = Ok out ->
  rows out = List.filter included (rows df) ++ map rewrite_major (List.filter excluded (rows df)) /\
  Forall text_major (List.filter excluded (rows df)) /\
  col_include ∈ columns df /\ col_major ∈ columns df.
Proof.
  intros H.
  assert (Hi : col_include ∈ columns df).
  { unfold preprocess_csv_data in H.
    destruct (Pd.getitem df col_include) eqn:E; [|discriminate].
    by apply getitem_inv in E as [? _]. }
  assert (Hm : col_major ∈ columns df).
  { unfold preprocess_csv_data in H. rewrite (getitem_Ok _ _ Hi) in H.
    cbn [mbind result_bind] in H.
    destruct (Pd.getitem (select df _) col_major) eqn:E; [|discriminate].
    by apply getitem_inv in E as [? _]. }
  rewrite preprocess_csv_data_unfold in H by done.
  destruct (map_result travel_rule _) as [major|] eqn:E; [|discriminate].
  injection H as <-.
  destruct (travel_rule_rewrite _ _ E) as [Hz Ht].
  repeat split; try done.
  unfold pd_concat. simpl. by rewrite Hz, app_nil_r.
Qed.

Lemma preprocess_csv_data_total df :
  valid_csv df -> exists out, preprocess_csv_data df = Ok out /\ columns out = columns df.
Proof.
  intros (Hi & Hm & Hnd & Hv).
  rewrite preprocess_csv_data_unfold by done.
  destruct (text_major_travel_rule (List.filter excluded (rows df))) as [major Hmaj].
  { apply Forall_forall. intros r Hr. apply list_elem_of_In, filter_In in Hr as [Hr He].
    apply list_elem_of_In in Hr. rewrite Forall_forall in Hv. auto. }
  rewrite Hmaj. eexists; split; [done|].
  rewrite pd_concat_same_columns; simpl; [done..|]. by rewrite bool_decide_eq_true_2.
Qed.

Lemma rewrite_major_include r : cell (rewrite_major r) col_include = cell r col_include.
Proof.
  unfold rewrite_major. destruct (is_travel r); [|done].
  by apply cell_insert_ne.
Qed.


(** C4.  On a valid CSV table [preprocess_csv_data] returns a table with
    the same columns whose rows are, first, the rows with include flag 1
    in input order and unchanged, then the rows with include flag 0 in
    input order, each rewritten by the travel rule: a row whose major
    category text contains the travel token gets exactly that token as
    its major category, any other row is unchanged.  [contains] is the
    substring test. *)
Theorem csv_normalizer_partitions (df : DataFrame) :
  valid_csv df ->
  exists out,
    preprocess_csv_data df = Ok out /\
    columns out = columns df /\
    rows out = List.filter included (rows df) ++
               map rewrite_major (List.filter excluded (rows df)) /\
    (forall r s, r ∈ rows df -> excluded r = true ->
       r !! col_major = Some (VStr s) ->
       rewrite_major r =
         if contains travel s then <[col_major := VStr travel]> r else r) /\
    (forall s, contains travel s = true <-> exists pre post, s = pre +:+ travel +:+ post).
Proof.
  intros Hv. destruct (preprocess_csv_data_total df Hv) as (out & Hout & Hcols).
  exists out. destruct (preprocess_csv_data_inv _ _ Hout) as (Hrows & _).
  repeat split; try done.
  - intros r s _ _ Hs. unfold rewrite_major, is_travel, cell. by rewrite Hs.
  - by apply contains_spec.
  - by apply contains_spec.
Qed.

(** C9.  Whatever the input table, the output of [preprocess_csv_data]
    consists of the rows whose flag equals 1 followed by the (rewritten)
    rows whose flag equals 0 and of nothing else: every output row has
    flag 1 or 0, there are as many output rows as input rows with flag 1
    or 0, and an input row whose flag is neither (a missing value, a 2,
    a text) is not in the output.  On a valid table the function does
    return. *)
Theorem csv_normalizer_keeps_only_flag_1_and_0 (df : DataFrame) :
  (valid_csv df -> exists out, preprocess_csv_data df = Ok out) /\
  (forall out, preprocess_csv_data df = Ok out ->
     rows out = List.filter included (rows df) ++
                map rewrite_major (List.filter excluded (rows df)) /\
     Forall (fun r => included r = true \/ excluded r = true) (rows out) /\
     length (rows out) =
       length (List.filter included (rows df)) + length (List.filter excluded (rows df)) /\
     (forall r, r ∈ rows df -> included r = false -> excluded r = false -> r ∉ rows out)).
Proof.
  split.
  { intros Hv. destruct (preprocess_csv_data_total df Hv) as (out & Hout & _). eauto. }
  intros out Hout. destruct (preprocess_csv_data_inv _ _ Hout) as (Hrows & _).
  assert (Hflags : Forall (fun r => included r = true \/ excluded r = true) (rows out)).
  { rewrite Hrows. apply Forall_app. split; apply Forall_forall; intros r Hr.
    - apply list_elem_of_In, filter_In in Hr as [_ Hr]. by left.
    - apply list_elem_of_In, in_map_iff in Hr as (r0 & <- & Hr).
      apply filter_In in Hr as [_ Hr]. right.
      unfold excluded in *. by rewrite rewrite_major_include. }
  repeat split; try done.
  - by rewrite Hrows, length_app, length_map.
  - intros r _ H1 H0 Hr. rewrite Forall_forall in Hflags.
    destruct (Hflags r Hr); congruence.
Qed.

(** The sample table is valid. *)
Lemma sample_csv_valid : valid_csv sample_csv.
Proof.
  repeat split; try decide_closed.
  constructor; [|constructor; [|constructor; [|constructor]]].
  - intros _. by exists "仕事の出張費".
  - intros H. vm_compute in H. discriminate.
  - intros H. vm_compute in H. discriminate.
Defined.

(** The end-to-end scenario: the included row comes first, unchanged,
    then the business-trip row with the travel category. *)
Lemma csv_normalizer_partitions_witness :
  exists out, preprocess_csv_data sample_csv = Ok out /\
    rows out = [food; <[col_major := VStr travel]> business_trip].
Proof.
  destruct (csv_normalizer_partitions sample_csv sample_csv_valid)
    as (out & Hout & _ & Hrows & _).
  exists out. split; [exact Hout|].
  rewrite Hrows. vm_compute. reflexivity.
Defined.

(** The row with the missing flag is dropped. *)
Lemma csv_normalizer_keeps_only_flag_1_and_0_witness :
  exists out, preprocess_csv_data sample_csv = Ok out /\ unflagged ∉ rows out.
Proof.
  destruct (csv_normalizer_keeps_only_flag_1_and_0 sample_csv) as [Htotal Hinv].
  destruct (Htotal sample_csv_valid) as [out Hout].
  exists out. split; [exact Hout|].
  destruct (Hinv out Hout) as (_ & _ & _ & Hdrop).
  apply Hdrop; [apply list_elem_of_further, list_elem_of_here | reflexivity | reflexivity].
Defined.

End CsvFacts.

(** ** The spreadsheet normalizer *)

Module ExcelFacts.
Import Obj Excel PyFacts PdFacts.

Lemma load_run (h : Heap) l df : h !! l = Some df -> load l h = (h, Ok df).
Proof. intros H. unfold load. by rewrite H. Qed.

Lemma getitem_run (h : Heap) l df c :
  h !! l = Some df -> getitem l c h = (h, Pd.getitem df c).
Proof. intros H. unfold getitem. by rewrite bind_run, (load_run _ _ _ H). Qed.

Lemma setitem_run (h : Heap) l df c s :
  h !! l = Some df -> setitem l c s h = (<[l := Pd.setitem df c s]> h, Ok tt).
Proof. intros H. unfold setitem. by rewrite bind_run, (load_run _ _ _ H). Qed.

Lemma setitem_scalar_run (h : Heap) l df c v :
  h !! l = Some df -> setitem_scalar l c v h = (<[l := Pd.setitem_scalar df c v]> h, Ok tt).
Proof. intros H. unfold setitem_scalar. by rewrite bind_run, (load_run _ _ _ H). Qed.

Lemma copy_run (h : Heap) l df :
  h !! l = Some df -> copy l h = (h ++ [df], Ok (length h)).
Proof. intros H. unfold copy. by rewrite bind_run, (load_run _ _ _ H). Qed.

Lemma getitems_run (h : Heap) l df cs :
  h !! l = Some df ->
  getitems l cs h = match Pd.getitems df cs with
                    | Ok out => (h ++ [out], Ok (length h))
                    | Raise e => (h, Raise e)
                    end.
Proof.
  intros H. unfold getitems. rewrite bind_run, (load_run _ _ _ H), bind_run.
  unfold lift. by destruct (Pd.getitems df cs).
Qed.

Lemma heap_insert_lookup (h : Heap) l df x :
  h !! l = Some df -> <[l := x]> h !! l = Some x.
Proof. intros H. apply list_lookup_insert_eq. eapply lookup_lt_Some; eauto. Qed.

Lemma preprocess_excel_data_run (h : Heap) l df u1 :
  h !! l = Some df ->
  preprocess_excel_data l u1 h =
    match amount_column u1 (with_include df) with
    | Raise e => (<[l := with_include df]> h, Raise e)
    | Ok d =>
        let df2 := Pd.setitem (with_include df) col_amount d in
        match Pd.getitems df2 common_columns with
        | Raise e => (<[l := df2]> h ++ [df2], Raise e)
        | Ok out => (<[l := df2]> h ++ [df2; out], Ok (S (length h)))
        end
    end.
Proof.
  intros Hl.
  unfold preprocess_excel_data, columns_of.
  rewrite !bind_run, (load_run _ _ _ Hl).
  rewrite ret_run.
  rewrite bind_run.
  assert (Hstep : (if negb (bool_decide (col_include ∈ columns df))
                   then setitem_scalar l col_include (VInt 1) else mret ()) h
                  = (<[l := with_include df]> h, Ok tt)).
  { unfold with_include. destruct (bool_decide _); simpl.
    - by rewrite list_insert_id.
    - by apply setitem_scalar_run. }
  rewrite Hstep. clear Hstep.
  pose proof (heap_insert_lookup _ _ _ (with_include df) Hl) as H1.
  set (h1 := <[l := with_include df]> h) in *.
  set (df1 := with_include df) in *.
  assert (Hamt : (if u1
       then getitem l col_u1_amount ≫= λ a0 : Series,
             getitem l col_u2_share ≫= λ b : Series,
              lift (Np.sub a0 b) ≫= λ d : Series, setitem l col_amount d
       else getitem l col_u2_amount ≫= λ a0 : Series,
             getitem l col_u1_ratio ≫= λ p : Series,
              lift (Np.mul a0 p) ≫= λ n : Series,
               getitem l col_u1_ratio ≫= λ p' : Series,
                getitem l col_u2_ratio ≫= λ q : Series,
                 lift (Np.add p' q) ≫= λ t : Series,
                  lift (Np.div n t) ≫= λ d : Series, setitem l col_amount d) h1
      = match amount_column u1 df1 with
        | Ok d => (<[l := Pd.setitem df1 col_amount d]> h1, Ok tt)
        | Raise e => (h1, Raise e)
        end).
  { unfold amount_column. destruct u1.
    - rewrite bind_run, (getitem_run _ _ _ _ H1).
      destruct (Pd.getitem df1 col_u1_amount) as [a|e]; [|done].
      rewrite bind_run, (getitem_run _ _ _ _ H1).
      destruct (Pd.getitem df1 col_u2_share) as [b|e]; [|done].
      rewrite bind_run. unfold lift. cbn [mbind result_bind].
      destruct (Np.sub a b) as [d|e]; [|done].
      by apply setitem_run.
    - rewrite bind_run, (getitem_run _ _ _ _ H1).
      destruct (Pd.getitem df1 col_u2_amount) as [a|e]; [|done].
      rewrite bind_run, (getitem_run _ _ _ _ H1).
      destruct (Pd.getitem df1 col_u1_ratio) as [p|e] eqn:Ep; [|done].
      rewrite bind_run. unfold lift at 1. cbn [mbind result_bind].
      destruct (Np.mul a p) as [n|e]; [|done].
      rewrite bind_run, (getitem_run _ _ _ _ H1), Ep.
      rewrite bind_run, (getitem_run _ _ _ _ H1).
      destruct (Pd.getitem df1 col_u2_ratio) as [q|e]; [|done].
      rewrite bind_run. unfold lift at 1. cbn [mbind result_bind].
      destruct (Np.add p q) as [t|e]; [|done].
      rewrite bind_run. unfold lift. cbn [mbind result_bind].
      destruct (Np.div n t) as [d|e]; [|done].
      by apply setitem_run. }
  rewrite bind_run, Hamt. clear Hamt.
  destruct (amount_column u1 df1) as [d|e]; [|done].
  cbv zeta.
  set (df2 := Pd.setitem df1 col_amount d).
  assert (Hh2 : <[l := df2]> h1 = <[l := df2]> h) by apply list_insert_insert_eq.
  rewrite Hh2.
  pose proof (heap_insert_lookup _ _ _ df2 Hl) as H2.
  rewrite bind_run, (copy_run _ _ _ H2).
  rewrite bind_run.
  rewrite (getitems_run _ (length (<[l:=df2]> h)) df2).
  2:{ by rewrite lookup_app_r, Nat.sub_diag. }
  destruct (Pd.getitems df2 common_columns) as [out|e]; [|done].
  rewrite length_app, length_insert. simpl.
  rewrite ret_run, <- app_assoc, Nat.add_1_r. reflexivity.
Qed.

Lemma rows_with_include df :
  length (rows (with_include df)) = length (rows df) /\
  forall c, c ≠ col_include ->
    map (fun r => cell r c) (rows (with_include df)) = column df c.
Proof.
  unfold with_include, column. case_bool_decide; [done|].
  unfold Pd.setitem_scalar, Pd.setitem. simpl. rewrite zip_with_const.
  split; [by rewrite length_map|].
  intros c Hc. rewrite map_map. apply map_ext. intros r. by apply cell_insert_ne.
Qed.

Lemma columns_with_include df c : c ∈ columns df -> c ∈ columns (with_include df).
Proof.
  unfold with_include. case_bool_decide; [done|].
  unfold Pd.setitem_scalar, Pd.setitem. simpl.
  rewrite bool_decide_eq_false_2 by done. intros. apply elem_of_app. by left.
Qed.

Lemma include_in_with_include df : col_include ∈ columns (with_include df).
Proof.
  unfold with_include. case_bool_decide; [done|].
  unfold Pd.setitem_scalar, Pd.setitem. simpl.
  rewrite bool_decide_eq_false_2 by done. apply elem_of_app. right. left.
Qed.

Lemma getitem_with_include df c :
  c ∈ columns df -> c ≠ col_include ->
  Pd.getitem (with_include df) c = Ok (column df c).
Proof.
  intros Hc Hne. rewrite getitem_Ok by by apply columns_with_include.
  f_equal. by apply rows_with_include.
Qed.

Lemma forallb_numeric df c :
  numeric_column df c -> forallb Np.is_numeric (column df c) = true.
Proof.
  intros [_ H]. apply forallb_forall. intros v Hv.
  apply in_map_iff in Hv as (r & <- & Hr). rewrite Forall_forall in H.
  apply H. by apply list_elem_of_In.
Qed.

Lemma common_dtype_numeric a b :
  forallb Np.is_numeric a = true -> forallb Np.is_numeric b = true ->
  Np.common_dtype a b <> Np.Object.
Proof.
  intros Ha Hb. unfold Np.common_dtype, Np.dtype_of. rewrite Ha, Hb.
  by destruct (forallb Np.is_int a), (forallb Np.is_int b).
Qed.

Lemma arith_numeric fi ff a b :
  Np.common_dtype a b <> Np.Object ->
  Np.arith fi ff a b = Ok (zip_with (Np.arith_cell fi ff (Np.common_dtype a b)) a b).
Proof. unfold Np.arith. by destruct (Np.common_dtype a b). Qed.

Lemma div_numeric a b :
  Np.common_dtype a b <> Np.Object -> Np.div a b = Ok (zip_with Np.div_cell a b).
Proof. unfold Np.div. by destruct (Np.common_dtype a b). Qed.

Lemma arith_cell_numeric fi ff dt x y : Np.is_numeric (Np.arith_cell fi ff dt x y) = true.
Proof. by destruct dt. Qed.

(** The run succeeds as soon as the amount can be computed, and the
    returned frame carries the computed amounts row by row. *)
Lemma preprocess_excel_data_success (h : Heap) l df u1 d :
  h !! l = Some df ->
  record_columns df ->
  amount_column u1 (with_include df) = Ok d ->
  length d = length (rows df) ->
  exists out,
    preprocess_excel_data l u1 h =
      (<[l := Pd.setitem (with_include df) col_amount d]> h ++
         [Pd.setitem (with_include df) col_amount d; out], Ok (S (length h))) /\
    columns out = common_columns /\
    length (rows out) = length (rows df) /\
    forall i v, d !! i = Some v ->
      exists r', rows out !! i = Some r' /\ cell r' col_amount = v.
Proof.
  intros Hl Hrec Hd Hlen.
  rewrite (preprocess_excel_data_run _ _ _ _ Hl), Hd. cbv zeta.
  set (df1 := with_include df) in *.
  set (df2 := Pd.setitem df1 col_amount d).
  rewrite getitems_Ok.
  2:{ unfold record_columns in Hrec. rewrite !Forall_cons in Hrec.
      destruct Hrec as (H1 & H2 & H3 & H4 & H5 & H6 & _).
      unfold common_columns.
      repeat (apply List.Forall_cons; [apply columns_setitem|]); try apply List.Forall_nil;
        try (left; by apply columns_with_include).
      { by right. }
      { left. apply include_in_with_include. } }
  eexists. split; [reflexivity|]. simpl.
  assert (Hl1 : length (rows df1) = length (rows df)) by apply rows_with_include.
  split; [done|]. split.
  { rewrite length_fmap, length_zip_with. lia. }
  intros i v Hv.
  destruct (lookup_lt_is_Some_2 (rows df1) i) as [r1 Hr1].
  { rewrite Hl1, <- Hlen. eapply lookup_lt_Some; eauto. }
  exists (restrict common_columns (<[col_amount := v]> r1)). split.
  - rewrite list_lookup_fmap, lookup_zip_with, Hr1. simpl. by rewrite Hv.
  - rewrite cell_restrict; [apply cell_insert_eq|].
    unfold common_columns, col_amount. do 3 apply list_elem_of_further. apply list_elem_of_here.
Qed.

Lemma wrap64_small z : (-2^63 <= z < 2^63)%Z -> Np.wrap64 z = z.
Proof. intros H. unfold Np.wrap64. rewrite Z.mod_small; lia. Qed.

Lemma heap_lookup_result (h : Heap) l (x y out : DataFrame) :
  (<[l := x]> h ++ [y; out]) !! S (length h) = Some out.
Proof.
  rewrite lookup_app_r; rewrite length_insert; [|lia].
  by replace (S (length h) - length h)%nat with 1%nat by lia.
Qed.

Lemma amount_column_primary df :
  numeric_column df col_u1_amount -> numeric_column df col_u2_share ->
  amount_column true (with_include df) =
    Ok (zip_with (Np.sub_cell (Np.common_dtype (column df col_u1_amount) (column df col_u2_share)))
          (column df col_u1_amount) (column df col_u2_share)).
Proof.
  intros Ha Hb. unfold amount_column.
  rewrite (getitem_with_include df col_u1_amount) by (done || apply Ha).
  rewrite (getitem_with_include df col_u2_share) by (done || apply Hb).
  cbn [mbind result_bind]. unfold Np.sub.
  apply arith_numeric, common_dtype_numeric; by apply forallb_numeric.
Qed.

Lemma amount_column_secondary df :
  numeric_column df col_u2_amount -> numeric_column df col_u1_ratio ->
  numeric_column df col_u2_ratio ->
  amount_column false (with_include df) =
    Ok (zip_with Np.div_cell
          (zip_with (Np.mul_cell (Np.common_dtype (column df col_u2_amount) (column df col_u1_ratio)))
             (column df col_u2_amount) (column df col_u1_ratio))
          (zip_with (Np.add_cell (Np.common_dtype (column df col_u1_ratio) (column df col_u2_ratio)))
             (column df col_u1_ratio) (column df col_u2_ratio))).
Proof.
  intros Ha Hp Hq. unfold amount_column.
  rewrite (getitem_with_include df col_u2_amount) by (done || apply Ha).
  rewrite (getitem_with_include df col_u1_ratio) by (done || apply Hp).
  rewrite (getitem_with_include df col_u2_ratio) by (done || apply Hq).
  cbn [mbind result_bind]. unfold Np.mul, Np.add.
  rewrite arith_numeric by (apply common_dtype_numeric; by apply forallb_numeric).
  cbn [mbind result_bind].
  rewrite arith_numeric by (apply common_dtype_numeric; by apply forallb_numeric).
  cbn [mbind result_bind].
  apply div_numeric, common_dtype_numeric;
    apply forallb_zip_with; intros; apply arith_cell_numeric.
Qed.


Lemma equal_zero_as_float v :
  Np.is_numeric v = true -> Np.equal v (VInt 0) = true ->
  exists sg, Np.as_float v = S754_zero sg.
Proof.
  destruct v as [z|f| | |]; simpl; try discriminate; intros _ H.
  - apply Z.eqb_eq in H as ->. by exists false.
  - destruct f as [sg| [] | |[] m e]; try discriminate. by exists sg.
Qed.

Lemma SFdiv_by_zero x sg : Np.inf_or_nan (SFdiv Np.prec Np.emax x (S754_zero sg)) = true.
Proof. by destruct x. Qed.

(** The primary sheet: the run returns, and row by row the amount is
    the difference computed in the common dtype of the two columns. *)
Lemma primary_rows (h : Heap) (l : loc) (df : DataFrame) :
  h !! l = Some df ->
  record_columns df ->
  numeric_column df col_u1_amount ->
  numeric_column df col_u2_share ->
  exists h' l' out,
    preprocess_excel_data l true h = (h', Ok l') /\
    h' !! l' = Some out /\
    length (rows out) = length (rows df) /\
    forall i r, rows df !! i = Some r ->
      exists r', rows out !! i = Some r' /\
        cell r' col_amount =
          Np.sub_cell (Np.common_dtype (column df col_u1_amount) (column df col_u2_share))
            (cell r col_u1_amount) (cell r col_u2_share).
Proof.
  intros Hl Hrec Ha Hb.
  destruct (preprocess_excel_data_success h l df true _ Hl Hrec (amount_column_primary df Ha Hb))
    as (out & Hrun & _ & Hlen & Hrows).
  { rewrite length_zip_with, !column_length. lia. }
  eexists _, _, out. split; [exact Hrun|]. split; [apply heap_lookup_result|].
  split; [exact Hlen|]. intros i r Hr. apply Hrows.
  by rewrite lookup_zip_with, !(column_lookup _ _ _ _ Hr).
Qed.

(** The secondary sheet: the run returns, and row by row the amount is
    the float64 quotient of the product [raw * primaryRatio] by the sum
    [primaryRatio + secondaryRatio], each computed in the common dtype
    of its two columns. *)
Lemma secondary_rows (h : Heap) (l : loc) (df : DataFrame) :
  h !! l = Some df ->
  record_columns df ->
  numeric_column df col_u2_amount ->
  numeric_column df col_u1_ratio ->
  numeric_column df col_u2_ratio ->
  exists h' l' out,
    preprocess_excel_data l false h = (h', Ok l') /\
    h' !! l' = Some out /\
    length (rows out) = length (rows df) /\
    forall i r, rows df !! i = Some r ->
      exists r', rows out !! i = Some r' /\
        cell r' col_amount =
          Np.div_cell
            (Np.mul_cell (Np.common_dtype (column df col_u2_amount) (column df col_u1_ratio))
               (cell r col_u2_amount) (cell r col_u1_ratio))
            (Np.add_cell (Np.common_dtype (column df col_u1_ratio) (column df col_u2_ratio))
               (cell r col_u1_ratio) (cell r col_u2_ratio)).
Proof.
  intros Hl Hrec Ha Hp Hq.
  destruct (preprocess_excel_data_success h l df false _ Hl Hrec
              (amount_column_secondary df Ha Hp Hq))
    as (out & Hrun & _ & Hlen & Hrows).
  { rewrite !length_zip_with, !column_length. lia. }
  eexists _, _, out. split; [exact Hrun|]. split; [apply heap_lookup_result|].
  split; [exact Hlen|]. intros i r Hr. apply Hrows.
  by rewrite !lookup_zip_with, !(column_lookup _ _ _ _ Hr).
Qed.

(** C5.  On a primary-contributor sheet with numeric amount columns
    [preprocess_excel_data] returns a frame whose [i]-th row carries as
    Amount the native difference of the [i]-th raw amount and secondary
    share: computed in int64 when both columns hold integers only, in
    float64 otherwise, with no other rounding.  For integer columns and
    a difference within int64 it is the integer difference; a row with
    raw amount 3000 and share 1000 yields an Amount equal to 2000. *)
Theorem primary_amount_is_raw_minus_share (h : Heap) (l : loc) (df : DataFrame) :
  h !! l = Some df ->
  record_columns df ->
  numeric_column df col_u1_amount ->
  numeric_column df col_u2_share ->
  let dt := Np.common_dtype (column df col_u1_amount) (column df col_u2_share) in
  exists h' l' out,
    preprocess_excel_data l true h = (h', Ok l') /\
    h' !! l' = Some out /\
    length (rows out) = length (rows df) /\
    forall i r, rows df !! i = Some r ->
      exists r', rows out !! i = Some r' /\
        cell r' col_amount = Np.sub_cell dt (cell r col_u1_amount) (cell r col_u2_share) /\
        (forall a b, dt = Np.Int64 ->
           cell r col_u1_amount = VInt a -> cell r col_u2_share = VInt b ->
           (-2^63 <= a - b < 2^63)%Z ->
           cell r' col_amount = VInt (a - b)) /\
        (cell r col_u1_amount = VInt 3000 -> cell r col_u2_share = VInt 1000 ->
           Np.equal (cell r' col_amount) (VInt 2000) = true).
Proof.
  intros Hl Hrec Ha Hb dt.
  destruct (primary_rows h l df Hl Hrec Ha Hb) as (h' & l' & out & Hrun & Hout & Hlen & Hrows).
  exists h', l', out. split; [done|]. split; [done|]. split; [done|].
  intros i r Hr. destruct (Hrows i r Hr) as (r' & Hr' & Hc). fold dt in Hc.
  exists r'. split; [done|]. split; [done|]. rewrite Hc. split.
  - intros a b Hdt Hca Hcb Hrange. rewrite Hdt, Hca, Hcb.
    unfold Np.sub_cell, Np.arith_cell. simpl. by rewrite wrap64_small.
  - intros -> ->. by destruct dt.
Qed.

(** C6.  On a secondary-contributor sheet with numeric columns
    [preprocess_excel_data] returns a frame whose [i]-th row carries as
    Amount the float64 quotient of [raw * primaryRatio] by
    [primaryRatio + secondaryRatio], whatever the sum is.  For integer
    columns without int64 overflow it is the float64 quotient of the two
    integers; a row with raw amount 900 and ratios 1 and 2 yields an
    Amount equal to 300. *)
Theorem secondary_amount_is_apportioned (h : Heap) (l : loc) (df : DataFrame) :
  h !! l = Some df ->
  record_columns df ->
  numeric_column df col_u2_amount ->
  numeric_column df col_u1_ratio ->
  numeric_column df col_u2_ratio ->
  let dn := Np.common_dtype (column df col_u2_amount) (column df col_u1_ratio) in
  let dt := Np.common_dtype (column df col_u1_ratio) (column df col_u2_ratio) in
  exists h' l' out,
    preprocess_excel_data l false h = (h', Ok l') /\
    h' !! l' = Some out /\
    length (rows out) = length (rows df) /\
    forall i r, rows df !! i = Some r ->
      exists r', rows out !! i = Some r' /\
        cell r' col_amount =
          Np.div_cell (Np.mul_cell dn (cell r col_u2_amount) (cell r col_u1_ratio))
                      (Np.add_cell dt (cell r col_u1_ratio) (cell r col_u2_ratio)) /\
        (forall a p q, dn = Np.Int64 -> dt = Np.Int64 ->
           cell r col_u2_amount = VInt a -> cell r col_u1_ratio = VInt p ->
           cell r col_u2_ratio = VInt q ->
           (-2^63 <= a * p < 2^63)%Z -> (-2^63 <= p + q < 2^63)%Z ->
           cell r' col_amount =
             VFloat (SFdiv Np.prec Np.emax (Np.to_float (a * p)) (Np.to_float (p + q)))) /\
        (cell r col_u2_amount = VInt 900 -> cell r col_u1_ratio = VInt 1 ->
           cell r col_u2_ratio = VInt 2 ->
           Np.equal (cell r' col_amount) (VInt 300) = true).
Proof.
  intros Hl Hrec Ha Hp Hq dn dt.
  destruct (secondary_rows h l df Hl Hrec Ha Hp Hq)
    as (h' & l' & out & Hrun & Hout & Hlen & Hrows).
  exists h', l', out. split; [done|]. split; [done|]. split; [done|].
  intros i r Hr. destruct (Hrows i r Hr) as (r' & Hr' & Hc). fold dn dt in Hc.
  exists r'. split; [done|]. split; [done|]. rewrite Hc. split.
  - intros a p q Hdn Hdt Hca Hcp Hcq Hr1 Hr2. rewrite Hdn, Hdt, Hca, Hcp, Hcq.
    unfold Np.div_cell, Np.mul_cell, Np.add_cell, Np.arith_cell. simpl.
    by rewrite !wrap64_small.
  - intros -> -> ->. by destruct dn, dt.
Qed.

(** C2, as amended.  On a secondary-contributor sheet with numeric
    columns [preprocess_excel_data] does not fail; in every row whose
    ratio sum compares equal to 0 the Amount is a float64 infinity or
    NaN. *)
Theorem zero_ratio_sum_yields_inf_or_nan (h : Heap) (l : loc) (df : DataFrame) :
  h !! l = Some df ->
  record_columns df ->
  numeric_column df col_u2_amount ->
  numeric_column df col_u1_ratio ->
  numeric_column df col_u2_ratio ->
  let dt := Np.common_dtype (column df col_u1_ratio) (column df col_u2_ratio) in
  exists h' l' out,
    preprocess_excel_data l false h = (h', Ok l') /\
    h' !! l' = Some out /\
    forall i r, rows df !! i = Some r ->
      Np.equal (Np.add_cell dt (cell r col_u1_ratio) (cell r col_u2_ratio)) (VInt 0) = true ->
      exists r' f, rows out !! i = Some r' /\
        cell r' col_amount = VFloat f /\ Np.inf_or_nan f = true.
Proof.
  intros Hl Hrec Ha Hp Hq dt.
  destruct (secondary_rows h l df Hl Hrec Ha Hp Hq)
    as (h' & l' & out & Hrun & Hout & _ & Hrows).
  exists h', l', out. split; [done|]. split; [done|].
  intros i r Hr Hzero. destruct (Hrows i r Hr) as (r' & Hr' & Hc).
  destruct (equal_zero_as_float _ (arith_cell_numeric _ _ _ _ _) Hzero) as [sg Hsg].
  eexists r', _. split; [done|]. split; [exact Hc|].
  fold dt. unfold Np.add_cell. rewrite Hsg. apply SFdiv_by_zero.
Qed.

(** The sample sheets meet the hypotheses. *)
Ltac sample_columns :=
  repeat (apply List.Forall_cons; [decide_closed|]); apply List.Forall_nil.
Ltac sample_numeric :=
  split; [decide_closed | repeat (apply List.Forall_cons; [vm_compute; reflexivity|]);
                          apply List.Forall_nil].

Lemma sheet_u1_ok :
  record_columns sheet_u1 /\
  numeric_column sheet_u1 col_u1_amount /\ numeric_column sheet_u1 col_u2_share.
Proof. split; [sample_columns|]. split; sample_numeric. Defined.

Lemma sheet_u2_ok :
  record_columns sheet_u2 /\ numeric_column sheet_u2 col_u2_amount /\
  numeric_column sheet_u2 col_u1_ratio /\ numeric_column sheet_u2 col_u2_ratio.
Proof. split; [sample_columns|]. split; [|split]; sample_numeric. Defined.

Lemma sheet_u2_zero_ok :
  record_columns sheet_u2_zero /\ numeric_column sheet_u2_zero col_u2_amount /\
  numeric_column sheet_u2_zero col_u1_ratio /\ numeric_column sheet_u2_zero col_u2_ratio.
Proof. split; [sample_columns|]. split; [|split]; sample_numeric. Defined.

(** Raw amount 3000 and secondary share 1000 give Amount 2000. *)
Lemma primary_amount_is_raw_minus_share_witness :
  exists h' l' out r',
    preprocess_excel_data 0 true [sheet_u1] = (h', Ok l') /\
    h' !! l' = Some out /\ rows out !! 0 = Some r' /\
    cell r' col_amount = VInt 2000.
Proof.
  destruct sheet_u1_ok as (Hrec & Ha & Hb).
  destruct (primary_amount_is_raw_minus_share [sheet_u1] 0 sheet_u1 eq_refl Hrec Ha Hb)
    as (h' & l' & out & Hrun & Hout & _ & Hrows).
  destruct (Hrows 0 _ eq_refl) as (r' & Hr' & _ & Hint & _).
  exists h', l', out, r'. split; [exact Hrun|]. split; [exact Hout|]. split; [exact Hr'|].
  apply (Hint 3000%Z 1000%Z); [reflexivity | reflexivity | reflexivity | lia].
Defined.

(** Raw amount 900 with ratios 1 and 2 gives Amount 300. *)
Lemma secondary_amount_is_apportioned_witness :
  exists h' l' out r',
    preprocess_excel_data 0 false [sheet_u2] = (h', Ok l') /\
    h' !! l' = Some out /\ rows out !! 0 = Some r' /\
    Np.equal (cell r' col_amount) (VInt 300) = true.
Proof.
  destruct sheet_u2_ok as (Hrec & Ha & Hp & Hq).
  destruct (secondary_amount_is_apportioned [sheet_u2] 0 sheet_u2 eq_refl Hrec Ha Hp Hq)
    as (h' & l' & out & Hrun & Hout & _ & Hrows).
  destruct (Hrows 0 _ eq_refl) as (r' & Hr' & _ & _ & Hex).
  exists h', l', out, r'. split; [exact Hrun|]. split; [exact Hout|]. split; [exact Hr'|].
  apply Hex; reflexivity.
Defined.

(** Ratios 0 and 0: the run succeeds and the Amount is not a number. *)
Lemma zero_ratio_sum_yields_inf_or_nan_witness :
  exists h' l' out r' f,
    preprocess_excel_data 0 false [sheet_u2_zero] = (h', Ok l') /\
    h' !! l' = Some out /\ rows out !! 0 = Some r' /\
    cell r' col_amount = VFloat f /\ Np.inf_or_nan f = true.
Proof.
  destruct sheet_u2_zero_ok as (Hrec & Ha & Hp & Hq).
  destruct (zero_ratio_sum_yields_inf_or_nan [sheet_u2_zero] 0 sheet_u2_zero
              eq_refl Hrec Ha Hp Hq)
    as (h' & l' & out & Hrun & Hout & Hrows).
  destruct (Hrows 0 _ eq_refl) as (r' & f & Hr' & Hc & Hf); [reflexivity|].
  exists h', l', out, r', f. repeat split; assumption.
Defined.

(** C2, the claim refuted: on the sheet whose rows have ratio sums
    [0 + 0] and [1 + (-1)], the normalizer raises nothing; it returns
    the frame at reference 2, whose Amount column is NaN and infinity. *)
Lemma zero_ratio_sum_does_not_fail :
  (preprocess_excel_data 0 false [sheet_u2_zero]).2 = Ok 2 /\
  (fun out => column out col_amount) <$> (preprocess_excel_data 0 false [sheet_u2_zero]).1 !! 2
    = Some [VFloat S754_nan; VFloat (S754_infinity false)].
Proof. split; vm_compute; reflexivity. Qed.

End ExcelFacts.

(** ** Assignments reach the caller's table *)

Module MutationFacts.
Import Obj Excel Dates PyFacts PdFacts ExcelFacts.

Section Canonicalizer.
Variable to_datetime_date : Series -> option Series.
Hypothesis to_datetime_date_length :
  forall s d, to_datetime_date s = Some d -> length d = length s.




End Canonicalizer.



End MutationFacts.

(** ** The store writer *)

Module SqliteFacts.
Import Sqlite PyFacts PdFacts.

Lemma to_sql_connections df name mode db :
  open_connections (to_sql df name mode db).1 = open_connections db.
Proof.
  unfold to_sql.
  destruct mode, (tables db !! name) as [t|]; simpl;
    repeat (try done; match goal with |- context [match ?x with _ => _ end] => destruct x end).
Qed.

Lemma prologue_run db (k : M Database unit) :
  (connect;; create_table_if_not_exists my_table my_table_columns (Some "ID");; k) db
  = k (opened db).
Proof.
  rewrite bind_run. unfold connect. rewrite modify_run.
  rewrite bind_run. unfold create_table_if_not_exists. rewrite modify_run. simpl.
  unfold opened. by destruct (tables db !! my_table).
Qed.

Lemma epilogue_run db :
  (commit;; close) db = (mkDb (tables db) (pred (open_connections db)), Ok tt).
Proof. reflexivity. Qed.

Lemma table_rows_opened db name : table_rows (opened db) name = table_rows db name.
Proof.
  unfold table_rows, opened. simpl.
  destruct (tables db !! my_table) as [t|] eqn:E; [done|].
  destruct (decide (name = my_table)) as [->|Hne].
  - by rewrite lookup_insert_eq, E.
  - by rewrite lookup_insert_ne.
Qed.

Lemma stored_ids_opened db : stored_ids (opened db) = stored_ids db.
Proof. unfold stored_ids. by rewrite table_rows_opened. Qed.

Lemma my_table_opened db :
  exists t, tables (opened db) !! my_table = Some t /\ t_rows t = table_rows db my_table.
Proof.
  unfold opened, table_rows. simpl.
  destruct (tables db !! my_table) as [t|] eqn:E.
  - exists t. by rewrite E.
  - eexists. by rewrite lookup_insert_eq.
Qed.

Lemma insert_rows_Ok key old new rs :
  insert_rows key old new = Ok rs -> rs = old ++ new.
Proof.
  revert old. induction new as [|r new IH]; intros old; simpl.
  - intros [= <-]. by rewrite app_nil_r.
  - destruct key as [k|].
    + destruct (key_conflict k old r); [discriminate|].
      intros H. apply IH in H. by rewrite <- app_assoc in H.
    + intros H. apply IH in H. by rewrite <- app_assoc in H.
Qed.

Lemma to_sql_append_rows nd name db1 db2 :
  to_sql nd name Append db1 = (db2, Ok tt) ->
  table_rows db2 name = table_rows db1 name ++ rows nd /\
  forall n, n ≠ name -> tables db2 !! n = tables db1 !! n.
Proof.
  unfold to_sql, table_rows.
  destruct (tables db1 !! name) as [t'|] eqn:Et.
  - destruct (forallb _ (columns nd)); [|discriminate].
    destruct (insert_rows (t_key t') (t_rows t') (rows nd)) as [rs|] eqn:Ers; [|discriminate].
    intros [= <-]. simpl. rewrite lookup_insert_eq. simpl.
    apply insert_rows_Ok in Ers. split; [done|].
    intros n Hn. by rewrite lookup_insert_ne.
  - destruct (columns nd); [discriminate|].
    intros [= <-]. simpl. rewrite lookup_insert_eq. simpl. split; [done|].
    intros n Hn. by rewrite lookup_insert_ne.
Qed.

(** The two modes, run from start to end. *)
Lemma insert_replace_run table_name df db :
  insert_data_to_sqlite table_name df true db =
    match to_sql df table_name Replace (opened db) with
    | (db2, Ok _) => (mkDb (tables db2) (pred (open_connections db2)), Ok tt)
    | (db2, Raise e) => (db2, Raise e)
    end.
Proof.
  unfold insert_data_to_sqlite. rewrite prologue_run, bind_run.
  destruct (to_sql df table_name Replace (opened db)) as [db2 [[]|e]]; [|done].
  apply epilogue_run.
Qed.

Lemma insert_append_run table_name df db :
  insert_data_to_sqlite table_name df false db =
    match tables (opened db) !! my_table with
    | None => (opened db, Raise (OperationalError "no such table"))
    | Some t =>
        if bool_decide ("ID" ∈ t_columns t) then
          match Pd.getitem df "ID" with
          | Raise e => (opened db, Raise e)
          | Ok _ =>
              let new_data := mkDF (columns df) (new_rows db df) in
              if Pd.df_empty new_data
              then (mkDb (tables (opened db)) (open_connections db), Ok tt)
              else match to_sql new_data table_name Append (opened db) with
                   | (db2, Ok _) => (mkDb (tables db2) (pred (open_connections db2)), Ok tt)
                   | (db2, Raise e) => (db2, Raise e)
                   end
          end
        else (opened db, Raise (OperationalError "no such column"))
    end.
Proof.
  unfold insert_data_to_sqlite. rewrite prologue_run, !bind_run.
  unfold read_sql_query_select.
  destruct (my_table_opened db) as (t & Ht & Hrows). rewrite Ht.
  case_bool_decide as Hid; [|done].
  rewrite bind_run, lift_run.
  rewrite getitem_Ok by (simpl; left).
  rewrite bind_run, lift_run.
  destruct (Pd.getitem df "ID") as [ids|e] eqn:Eid; [|done].
  apply getitem_inv in Eid as [_ ->].
  assert (Hids : map (fun r => cell r "ID")
                   (rows (mkDF ["ID"] ((fun v => ({[ "ID" := v ]} : Row))
                      <$> read_column (map (fun r => cell r "ID") (t_rows t)))))
                 = stored_ids db).
  { unfold stored_ids. rewrite <- Hrows. simpl.
    change (map (fun r => cell r "ID")
              ((fun v => ({[ "ID" := v ]} : Row)) <$> ?l))
      with (map (fun r => cell r "ID") (map (fun v => ({[ "ID" := v ]} : Row)) l)).
    rewrite map_map. rewrite <- (map_id (read_column _)) at 2.
    apply map_ext. intros v. unfold cell. by rewrite lookup_singleton_eq. }
  rewrite Hids.
  assert (Hnew : select df (series_not (series_isin (map (fun r => cell r "ID") (rows df))
                   (stored_ids db)))
                 = mkDF (columns df) (new_rows db df)).
  { unfold select, series_not, series_isin, new_rows. rewrite !map_map.
    by rewrite (mask_rows_map (fun r => negb (Np.isin (cell r "ID") (stored_ids db)))). }
  rewrite Hnew. cbv zeta.
  destruct (Pd.df_empty (mkDF (columns df) (new_rows db df))); cbn [negb].
  - reflexivity.
  - destruct (to_sql (mkDF (columns df) (new_rows db df)) table_name Append (opened db))
      as [db2 [[]|e]]; [|done].
    apply epilogue_run.
Qed.

(** A successful append-mode run adds to the target table the rows of
    the batch whose ID is not in [my_table], and leaves the rows of
    every other table as they were. *)
Lemma insert_append_rows table_name df db db' :
  insert_data_to_sqlite table_name df false db = (db', Ok tt) ->
  table_rows db' table_name = table_rows db table_name ++ new_rows db df /\
  forall n, n ≠ table_name -> table_rows db' n = table_rows db n.
Proof.
  intros Hrun. rewrite insert_append_run in Hrun.
  destruct (tables (opened db) !! my_table) as [t|]; [|discriminate].
  case_bool_decide; [|discriminate].
  destruct (Pd.getitem df "ID") as [ids|] eqn:Eid; [|discriminate].
  apply getitem_inv in Eid as [Hid _]. cbv zeta in Hrun.
  destruct (Pd.df_empty _) eqn:Eempty.
  - injection Hrun as <-.
    assert (Hnil : new_rows db df = []).
    { unfold Pd.df_empty in Eempty. simpl in Eempty.
      destruct (columns df); [by apply elem_of_nil in Hid|].
      by destruct (new_rows db df). }
    rewrite Hnil, app_nil_r. split; [|intros n _]; apply (table_rows_opened db).
  - destruct (to_sql (mkDF (columns df) (new_rows db df)) table_name Append (opened db))
      as [db2 [[]|e]] eqn:Esql; [|discriminate].
    injection Hrun as <-.
    destruct (to_sql_append_rows _ _ _ _ Esql) as [Hrows Hother].
    split.
    + rewrite <- (table_rows_opened db table_name). exact Hrows.
    + intros n Hn. rewrite <- (table_rows_opened db n).
      unfold table_rows. simpl. by rewrite (Hother n Hn).
Qed.

(** Two successful append-mode runs of one batch into a table other
    than [my_table] add the rows that passed the check twice. *)
Lemma append_twice table_name df db db1 db2 :
  table_name ≠ my_table ->
  insert_data_to_sqlite table_name df false db = (db1, Ok tt) ->
  insert_data_to_sqlite table_name df false db1 = (db2, Ok tt) ->
  table_rows db1 table_name = table_rows db table_name ++ new_rows db df /\
  table_rows db2 table_name = table_rows db1 table_name ++ new_rows db df.
Proof.
  intros Hne H1 H2.
  destruct (insert_append_rows _ _ _ _ H1) as [Hr1 Ho1].
  destruct (insert_append_rows _ _ _ _ H2) as [Hr2 _].
  split; [done|]. rewrite Hr2. f_equal.
  unfold new_rows, stored_ids. by rewrite (Ho1 my_table) by done.
Qed.

(** A column of integer IDs is read back as it was written. *)
Lemma integer_id_is_int v : integer_id v = true -> Np.is_int v = true.
Proof. by destruct v. Qed.

Lemma read_column_integers ids :
  Forall (fun v => integer_id v = true) ids -> read_column ids = ids.
Proof.
  intros H. unfold read_column.
  assert (Hs : map stored_as ids = ids).
  { induction H as [|v vs Hv _ IH]; simpl; [done|]. rewrite IH. by destruct v. }
  rewrite Hs. cbv zeta.
  assert (forallb Np.is_int ids = true) as ->; [|done].
  apply forallb_forall. intros v Hv. apply integer_id_is_int.
  rewrite Forall_forall in H. by apply H, list_elem_of_In.
Qed.

Lemma stored_ids_integer db :
  integer_ids db -> stored_ids db = map (fun r => cell r "ID") (table_rows db my_table).
Proof.
  intros H. unfold stored_ids. apply read_column_integers.
  unfold integer_ids in H. by rewrite Forall_map.
Qed.

(** The rows that pass the check depend on the database through the
    rows of [my_table] only. *)
Lemma new_rows_same_my_table db other df :
  table_rows other my_table = table_rows db my_table -> new_rows other df = new_rows db df.
Proof. intros H. unfold new_rows, stored_ids. by rewrite H. Qed.

(** When the target is [my_table] itself the duplicate check reads the
    table it writes.  With integer IDs in the table and in the batch
    the write is idempotent: after a successful run, a second run with
    the same batch changes nothing. *)
Lemma SFeqb_refl f : f <> S754_nan -> SFeqb f f = true.
Proof.
  unfold SFeqb. destruct f as [s|s| |s m e]; simpl; try done.
  - by destruct s.
  - intros _. destruct s; rewrite Z.compare_refl, Pos.compare_cont_refl; done.
Qed.

Lemma equal_or_nan_refl x : Np.equal x x || (Np.is_nan x && Np.is_nan x) = true.
Proof.
  destruct x as [z|f|s|y m d|]; simpl.
  - by rewrite Z.eqb_refl.
  - destruct f as [sg|sg| |sg m e]; try (by rewrite SFeqb_refl); done.
  - by rewrite String.eqb_refl.
  - by rewrite !Z.eqb_refl.
  - done.
Qed.

Lemma isin_elem x ys : In x ys -> Np.isin x ys = true.
Proof.
  intros H. unfold Np.isin. apply existsb_exists. exists x. split; [done|].
  apply equal_or_nan_refl.
Qed.

Lemma isin_app x ys zs : Np.isin x (ys ++ zs) = Np.isin x ys || Np.isin x zs.
Proof. unfold Np.isin. apply existsb_app. Qed.

Lemma new_rows_after_append db db1 df :
  integer_ids db ->
  Forall (fun r => integer_id (cell r "ID") = true) (rows df) ->
  table_rows db1 my_table = table_rows db my_table ++ new_rows db df ->
  new_rows db1 df = [].
Proof.
  intros Hdb Hdf Hrows.
  assert (Hdb1 : integer_ids db1).
  { unfold integer_ids. rewrite Hrows. apply Forall_app. split; [exact Hdb|].
    unfold new_rows. apply Forall_forall. intros r Hr.
    apply list_elem_of_In, filter_In in Hr as [Hr _].
    rewrite Forall_forall in Hdf. by apply Hdf, list_elem_of_In. }
  unfold new_rows at 1. rewrite (stored_ids_integer _ Hdb1), Hrows, map_app.
  rewrite <- (stored_ids_integer _ Hdb).
  assert (H : forall r, In r (rows df) ->
            negb (Np.isin (cell r "ID")
                    (stored_ids db ++ map (fun r => cell r "ID") (new_rows db df))) = false).
  { intros r Hr. rewrite isin_app.
    destruct (Np.isin (cell r "ID") (stored_ids db)) eqn:E; [done|]. simpl.
    rewrite isin_elem; [done|].
    apply (in_map (fun r0 : Row => cell r0 "ID")). unfold new_rows. apply filter_In.
    by rewrite E. }
  clear Hdf Hdb1 Hrows.
  set (ids := stored_ids db ++ map (fun r => cell r "ID") (new_rows db df)) in *.
  clearbody ids. revert H. generalize (rows df). intros l H.
  induction l as [|r rs IH]; simpl; [done|].
  rewrite H by by left. apply IH. intros r' Hr'. apply H. by right.
Qed.

Lemma append_into_my_table_is_idempotent df db db1 :
  integer_ids db ->
  Forall (fun r => integer_id (cell r "ID") = true) (rows df) ->
  insert_data_to_sqlite my_table df false db = (db1, Ok tt) ->
  insert_data_to_sqlite my_table df false db1 = (db1, Ok tt).
Proof.
  intros Hdb Hdf Hrun.
  pose proof (insert_append_rows _ _ _ _ Hrun) as [Hrows _].
  pose proof (new_rows_after_append _ _ _ Hdb Hdf Hrows) as Hnil.
  assert (Hkeep : exists t1, tables db1 !! my_table = Some t1 /\ "ID" ∈ t_columns t1 /\
                    "ID" ∈ columns df).
  { rewrite insert_append_run in Hrun.
    destruct (tables (opened db) !! my_table) as [t|] eqn:Et; [|discriminate].
    case_bool_decide as Hid; [|discriminate].
    destruct (Pd.getitem df "ID") as [ids|] eqn:Eid; [|discriminate].
    apply getitem_inv in Eid as [Hcol _]. cbv zeta in Hrun.
    destruct (Pd.df_empty _).
    - injection Hrun as <-. exists t. done.
    - unfold to_sql in Hrun. rewrite Et in Hrun.
      destruct (forallb _ _); [|discriminate].
      destruct (insert_rows _ _ _) as [rs|]; [|discriminate].
      injection Hrun as <-. eexists. simpl. rewrite lookup_insert_eq. done. }
  destruct Hkeep as (t1 & Ht1 & Hid & Hcol).
  rewrite insert_append_run.
  assert (Hopened : tables (opened db1) = tables db1) by (unfold opened; simpl; by rewrite Ht1).
  rewrite Hopened, Ht1, bool_decide_eq_true_2 by done.
  rewrite getitem_Ok by done. cbv zeta. rewrite Hnil.
  unfold Pd.df_empty. simpl. destruct (columns df); by destruct db1.
Qed.



(** C3, as amended.  [insert_data_to_sqlite] closes the connection it
    opened when it completes; when an exception leaves it (from the ID
    lookup, the column access or the insertion) the connection is still
    open. *)
Theorem connection_closed_on_success_only (table_name : string) (df : DataFrame)
    (replace : bool) (db : Database) :
  match insert_data_to_sqlite table_name df replace db with
  | (db', Ok _) => open_connections db' = open_connections db
  | (db', Raise _) => open_connections db' = S (open_connections db)
  end.
Proof.
  destruct replace.
  - rewrite insert_replace_run.
    pose proof (to_sql_connections df table_name Replace (opened db)) as Hc.
    destruct (to_sql df table_name Replace (opened db)) as [db2 [[]|e]]; simpl in *.
    + by rewrite Hc.
    + done.
  - rewrite insert_append_run.
    destruct (tables (opened db) !! my_table) as [t|]; [|done].
    case_bool_decide; [|done].
    destruct (Pd.getitem df "ID"); [|done]. cbv zeta.
    destruct (Pd.df_empty _); [done|].
    pose proof (to_sql_connections (mkDF (columns df) (new_rows db df)) table_name Append
                  (opened db)) as Hc.
    destruct (to_sql _ table_name Append (opened db)) as [db2 [[]|e]]; simpl in *.
    + by rewrite Hc.
    + done.
Qed.

(** C3, the claim refuted: appending the sample batch to [my_table] in
    a new database fails in the insertion ([my_table] has no column
    金額（円）), and one connection is left open. *)
Lemma failed_insert_leaves_connection_open :
  (insert_data_to_sqlite my_table sample_batch false empty_db).2
    = Raise (OperationalError "no such column") /\
  open_connections empty_db = 0 /\
  open_connections (insert_data_to_sqlite my_table sample_batch false empty_db).1 = 1.
Proof. repeat split; vm_compute; reflexivity. Qed.

(** C8.  In append mode the IDs that filter the batch are read from
    [my_table], whatever the target.  For a target table other than
    [my_table], a successful run appends to the target a list of rows
    of which the target's own rows decide nothing: a run of the same
    batch on any database whose [my_table] holds the same rows appends
    the same list, whatever its target holds.  The run leaves
    [my_table] as it was, so that a second run with the same batch
    appends the same rows once more.  When [my_table] stores integer
    IDs, as its declaration has it, the rows appended are the rows of
    the batch whose ID is not among the IDs stored in [my_table]. *)
Theorem duplicate_check_reads_my_table (table_name : string) (df : DataFrame)
    (db db' : Database) :
  table_name ≠ my_table ->
  insert_data_to_sqlite table_name df false db = (db', Ok tt) ->
  exists added,
    table_rows db' table_name = table_rows db table_name ++ added /\
    table_rows db' my_table = table_rows db my_table /\
    (forall other other',
       table_rows other my_table = table_rows db my_table ->
       insert_data_to_sqlite table_name df false other = (other', Ok tt) ->
       table_rows other' table_name = table_rows other table_name ++ added) /\
    (forall db'',
       insert_data_to_sqlite table_name df false db' = (db'', Ok tt) ->
       table_rows db'' table_name = table_rows db' table_name ++ added) /\
    (integer_ids db ->
     let checked := map (fun r => cell r "ID") (table_rows db my_table) in
     added = List.filter (fun r => negb (Np.isin (cell r "ID") checked)) (rows df)).
Proof.
  intros Hne Hrun. exists (new_rows db df).
  destruct (insert_append_rows _ _ _ _ Hrun) as [Hrows Hother].
  split; [exact Hrows|]. split; [by apply Hother|]. split; [|split].
  - intros other other' Hsame Hrun'.
    destruct (insert_append_rows _ _ _ _ Hrun') as [Hr _].
    by rewrite Hr, (new_rows_same_my_table db other df Hsame).
  - intros db'' Hrun'.
    by destruct (append_twice _ _ _ _ _ Hne Hrun Hrun') as [_ ?].
  - intros Hint checked. unfold new_rows. by rewrite (stored_ids_integer _ Hint).
Qed.

(** [my_table] stores ID 1 and the target stores ID 2: of the batch
    with IDs 1, 2 and 3 the record with ID 1 is withheld, though the
    target does not have it, and the record with ID 2 is appended,
    though the target has it already. *)
Lemma duplicate_check_reads_my_table_witness :
  table_rows (insert_data_to_sqlite financial_data batch_123 false db_disagreeing).1
    financial_data
    = [entry (VInt 2) "食費"; entry (VInt 2) "食費"; entry (VInt 3) "光熱費"].
Proof.
  destruct (duplicate_check_reads_my_table financial_data batch_123 db_disagreeing
              (insert_data_to_sqlite financial_data batch_123 false db_disagreeing).1)
    as (added & Hrows & _ & _ & _ & Hadded).
  { discriminate. }
  { vm_compute. reflexivity. }
  rewrite Hrows, Hadded.
  - vm_compute. reflexivity.
  - unfold integer_ids. decide_closed.
Defined.

(** A row of [my_table] without an ID is stored with NULL there, which
    pandas reads as [None] when the column holds nothing else; the
    record of the batch without an ID, whose ID is NaN, is not found
    among the IDs read, and is appended with the other. *)
Lemma missing_stored_id_is_read_as_none :
  stored_ids db_null_id = [VNone] /\
  table_rows (insert_data_to_sqlite financial_data batch_missing_id false db_null_id).1
    financial_data = rows batch_missing_id.
Proof. split; vm_compute; reflexivity. Qed.

(** C1, on the code: the script's own call, twice, on a new database.
    Both runs succeed; after the first the target table holds the
    record, after the second it holds it twice: the second run appended
    a row whose ID was already present.  The IDs were looked up in
    [my_table], which is still empty.  (Compare [append_twice] for any
    target other than [my_table], and
    [append_into_my_table_is_idempotent] for [my_table] itself.) *)
Theorem second_append_run_duplicates_rows :
  let run := insert_data_to_sqlite financial_data sample_batch false in
  let db1 := (run empty_db).1 in
  let db2 := (run db1).1 in
  (run empty_db).2 = Ok tt /\ (run db1).2 = Ok tt /\
  table_rows db1 financial_data = [record_1] /\
  table_rows db2 financial_data = [record_1; record_1] /\
  table_rows db2 my_table = [].
Proof. repeat split; vm_compute; reflexivity. Qed.

End SqliteFacts.
